(** * Timesheet_App: business rules of the timesheet and leave workflow

    A shallow embedding of [timesheet/models.py], [timesheet/forms.py] and
    [timesheet/views.py], followed by the properties proved about it.

    - Calendar dates ([datetime.date]) are represented by their proleptic
      Gregorian ordinal ([date.toordinal()]), an integer between 1
      (0001-01-01) and 3652059 (9999-12-31).  Adding a [timedelta] that leaves
      this range raises [OverflowError], as in Python.
    - [Decimal] values (hours, days) are represented by the rational number
      they denote; the special values NaN and Infinity are not represented.
    - The relational store is a record of tables, each a list of rows; model
      methods and views pass the store explicitly and return either a value
      or the exception that Python would raise.
    - Logging and the session draft are not part of the state. *)

From Stdlib Require Import ZArith QArith List Bool Lia Lqa String.
From Stdlib Require Import Permutation.
From Equations Require Import Equations.
Import ListNotations.

Set Implicit Arguments.
Open Scope Z_scope.

(* ===================================================================== *)
(** * Part I: the embedding                                               *)
(* ===================================================================== *)

(** ** Messages, exceptions and results *)

(** The user-facing texts of the application; the values that the source
    formats into a text are kept as arguments. *)
Inductive text : Type :=
| invalid_hours (d : Z)                 (* "Invalid hours for {date_str}." *)
| cannot_exceed (d : Z)                 (* "Cannot exceed 7.5 hrs on {dt}." *)
| would_exceed (hours : Q) (d : Z)      (* "Logging {hours}h would exceed the total 7.5h for {date}." *)
| field_errors                          (* the framework's own field and uniqueness errors *)
| timesheet_saved
| timesheet_submitted
| empty_timesheet                       (* "Cannot submit an empty timesheet. ..." *)
| timesheet_incomplete (total expected missing : Q)
                                        (* "... entered {total} hours but need {expected} ...
                                            Please add {expected - total} more hours ..." *)
| start_after_end                       (* "Start date cannot be after end date." *)
| start_before_today                    (* "Start date cannot be before today." *)
| start_in_past                         (* "Cannot request leave from a past date." *)
| overlapping_request                   (* "You have an overlapping leave request. ..." *)
| insufficient_balance (remaining : Q) (leave_type : positive)
| no_entitlement (leave_type : positive) (year : Z)
| leave_submitted (total_days : Q) (start_date end_date : Z) (confirmation manager : bool)
| no_manager_notification
| no_confirmation_email
| email_unavailable
| view_my_requests
| leave_approved
| leave_rejected
| approve_failed
| reject_failed
| reason_required.

(** The exceptions that the embedded code can raise. *)
Inductive exn : Type :=
| OverflowError                         (* date value out of range *)
| ValueError
| KeyError
| AttributeError
| ValidationError (msg : text)
| DoesNotExist
| MultipleObjectsReturned
| Http404.

Inductive result (A : Type) : Type :=
| Ok (a : A)
| Raise (e : exn).
Arguments Ok {A} a.
Arguments Raise {A} e.

Definition bind {A B : Type} (r : result A) (k : A -> result B) : result B :=
  match r with
  | Ok a => k a
  | Raise e => Raise e
  end.

Notation "x <- r ;; k" := (bind r (fun x => k))
  (at level 61, r at next level, right associativity).

(** ** Calendar dates *)

(** [datetime.date], by ordinal. *)
Definition date : Type := Z.

Definition MINORDINAL : Z := 1.
Definition MAXORDINAL : Z := 3652059.

(** [date.max], 9999-12-31. *)
Definition date_max : date := MAXORDINAL.

Definition valid_date (d : date) : Prop := MINORDINAL <= d <= MAXORDINAL.

Definition valid_dateb (d : date) : bool :=
  (MINORDINAL <=? d) && (d <=? MAXORDINAL).

(** [d + timedelta(days=n)]: raises [OverflowError] outside the range. *)
Definition add_days (d : date) (n : Z) : result date :=
  if valid_dateb (d + n) then Ok (d + n) else Raise OverflowError.

(** [date.weekday()]: Monday is 0 and Sunday is 6. *)
Definition weekday (d : date) : Z := (d + 6) mod 7.

(** [date.year], following [_ord2ymd] of the [datetime] module. *)
Definition year_of (d : date) : Z :=
  let n := d - 1 in
  let n400 := n / 146097 in
  let n := n mod 146097 in
  let n100 := n / 36524 in
  let n := n mod 36524 in
  let n4 := n / 1461 in
  let n := n mod 1461 in
  let n1 := n / 365 in
  let y := n400 * 400 + 1 + n100 * 100 + n4 * 4 + n1 in
  if (n1 =? 4) || (n100 =? 4) then y - 1 else y.

Definition inspect {A : Type} (a : A) : {b : A | a = b} := exist _ a eq_refl.

(** The loop shared by [calculate_business_days] and the leave overlay of
    [weekly_timesheet]:

      while current_date <= end_date:
          acc = body(current_date, acc)
          current_date += timedelta(days=1)

    The increment is executed after every iteration, the last one included. *)
Equations? while_date_le (A : Type) (body : date -> A -> A)
    (end_date current_date : date) (acc : A) : result A
    by wf (Z.to_nat (end_date - current_date + 1)) lt :=
  while_date_le body end_date current_date acc with inspect (current_date <=? end_date) := {
    | exist _ false _ := Ok acc
    | exist _ true Hle with inspect (add_days current_date 1) := {
        | exist _ (Raise e) _ := Raise e
        | exist _ (Ok next) Hnext := while_date_le body end_date next (body current_date acc) } }.
Proof.
  unfold add_days in Hnext.
  destruct (valid_dateb (current_date + 1)); [|discriminate].
  injection Hnext as <-. apply Z.leb_le in Hle. lia.
Qed.

(** ** Decimals *)

(** [decimal.Decimal], by value. *)
Definition Decimal : Type := Q.

(** [Decimal("7.5")], the daily cap, and [Decimal("37.5")], the full week. *)
Definition DAILY_CAP : Decimal := (75 # 10)%Q.

(** [x > y] and [x < y] on decimals. *)
Definition decimal_gt (x y : Decimal) : bool := negb (Qle_bool x y).

(** [not x] for a decimal: zero is falsy. *)
Definition decimal_is_zero (x : Decimal) : bool := Qeq_bool x 0.

(** [sum(xs)] and the [Sum] aggregate with its [or 0] default. *)
Definition decimal_sum (xs : list Decimal) : Decimal :=
  fold_left Qplus xs 0%Q.

(** ** Rows of the relational store *)

(** Primary keys ([BigAutoField]): 1, 2, 3, ... *)
Definition key : Type := positive.

Definition opt_key_eqb (a b : option key) : bool :=
  match a, b with
  | Some x, Some y => Pos.eqb x y
  | None, None => true
  | _, _ => false
  end.

Record User : Type := {
  u_id : key;
  u_manager : option key;          (* ForeignKey("self", null=True) *)
  u_email : string
}.

Record Project : Type := {
  p_id : key;
  p_active : bool;
  p_members : list key              (* ManyToManyField(User) *)
}.

Record TimeEntry : Type := {
  te_pk : option key;               (* None until the row is inserted *)
  te_user : key;
  te_project : option key;          (* ForeignKey(Project, null=True) *)
  te_date : date;
  te_hours : Decimal;
  te_submitted : bool
}.

Record LeaveType : Type := {
  lt_id : key;
  lt_active : bool
}.

Record LeaveEntitlement : Type := {
  le_user : key;
  le_leave_type : key;
  le_year : Z;
  le_allocated_days : Decimal
}.

Inductive Status : Type := PENDING | APPROVED | REJECTED | CANCELLED.

Definition Status_eqb (a b : Status) : bool :=
  match a, b with
  | PENDING, PENDING | APPROVED, APPROVED
  | REJECTED, REJECTED | CANCELLED, CANCELLED => true
  | _, _ => false
  end.

Record LeaveRequest : Type := {
  lr_pk : option key;               (* None until the row is inserted *)
  lr_user : key;
  lr_leave_type : key;
  lr_start_date : date;
  lr_end_date : date;
  lr_total_days : Decimal;
  lr_comments : string;
  lr_status : Status;
  lr_approved_by : option key;
  lr_approved_at : option Z;
  lr_rejection_reason : string
}.

(** The store: one table per model. *)
Record DB : Type := {
  users : list User;
  projects : list Project;
  leave_types : list LeaveType;
  leave_entitlements : list LeaveEntitlement;
  leave_requests : list LeaveRequest;
  time_entries : list TimeEntry
}.

Definition set_leave_requests (db : DB) (rows : list LeaveRequest) : DB :=
  {| users := users db; projects := projects db; leave_types := leave_types db;
     leave_entitlements := leave_entitlements db;
     leave_requests := rows; time_entries := time_entries db |}.

Definition set_time_entries (db : DB) (rows : list TimeEntry) : DB :=
  {| users := users db; projects := projects db; leave_types := leave_types db;
     leave_entitlements := leave_entitlements db;
     leave_requests := leave_requests db; time_entries := rows |}.

(** [QuerySet.get()]: exactly one row, else [DoesNotExist] or
    [MultipleObjectsReturned]. *)
Definition objects_get {A : Type} (qs : list A) : result A :=
  match qs with
  | [] => Raise DoesNotExist
  | [a] => Ok a
  | _ :: _ :: _ => Raise MultipleObjectsReturned
  end.

(** The next value of an auto-increment primary key. *)
Definition fresh_pk (pks : list (option key)) : key :=
  fold_right (fun o m => match o with Some k => Pos.max (Pos.succ k) m | None => m end)
             1%positive pks.

(** [Model.save()] below the overrides: UPDATE the row with this primary key,
    INSERT when there is none. *)
Definition save_row {A : Type} (pk : A -> option key) (set_pk : key -> A -> A)
    (rows : list A) (a : A) : list A :=
  match pk a with
  | Some k =>
      if existsb (fun r => opt_key_eqb (pk r) (Some k)) rows
      then map (fun r => if opt_key_eqb (pk r) (Some k) then a else r) rows
      else rows ++ [a]
  | None => rows ++ [set_pk (fresh_pk (map pk rows)) a]
  end.

(** ** models.py: User *)

(** [User.is_manager_of]: [user.manager == self]. *)
Definition is_manager_of (self user : User) : bool :=
  opt_key_eqb (u_manager user) (Some (u_id self)).

(** ** models.py: LeaveRequest *)

(** [LeaveRequest.calculate_business_days]; [None] dates give 0. *)
Definition calculate_business_days (start_date end_date : option date) : result Z :=
  match start_date, end_date with
  | Some start_date, Some end_date =>
      while_date_le
        (fun current_date business_days =>
           if weekday current_date <? 5 then business_days + 1 else business_days)
        end_date start_date 0
  | _, _ => Ok 0
  end.

Definition lr_set_pk (k : key) (r : LeaveRequest) : LeaveRequest :=
  {| lr_pk := Some k; lr_user := lr_user r; lr_leave_type := lr_leave_type r;
     lr_start_date := lr_start_date r; lr_end_date := lr_end_date r;
     lr_total_days := lr_total_days r; lr_comments := lr_comments r;
     lr_status := lr_status r; lr_approved_by := lr_approved_by r;
     lr_approved_at := lr_approved_at r;
     lr_rejection_reason := lr_rejection_reason r |}.

Definition lr_set_total_days (t : Decimal) (r : LeaveRequest) : LeaveRequest :=
  {| lr_pk := lr_pk r; lr_user := lr_user r; lr_leave_type := lr_leave_type r;
     lr_start_date := lr_start_date r; lr_end_date := lr_end_date r;
     lr_total_days := t; lr_comments := lr_comments r;
     lr_status := lr_status r; lr_approved_by := lr_approved_by r;
     lr_approved_at := lr_approved_at r;
     lr_rejection_reason := lr_rejection_reason r |}.

(** The assignments of [approve] and [reject] (and of [cancel_leave_request],
    which changes the status alone). *)
Definition lr_decide (s : Status) (by_user : option key) (at_time : option Z)
    (reason : string) (r : LeaveRequest) : LeaveRequest :=
  {| lr_pk := lr_pk r; lr_user := lr_user r; lr_leave_type := lr_leave_type r;
     lr_start_date := lr_start_date r; lr_end_date := lr_end_date r;
     lr_total_days := lr_total_days r; lr_comments := lr_comments r;
     lr_status := s; lr_approved_by := by_user; lr_approved_at := at_time;
     lr_rejection_reason := reason |}.

(** [LeaveRequest.save]: fills [total_days] when it is not set (zero counts
    as not set), then writes the row.  Returns the store and the instance. *)
Definition LeaveRequest_save (db : DB) (self : LeaveRequest)
    : result (DB * LeaveRequest) :=
  self <- (if decimal_is_zero (lr_total_days self)
           then n <- calculate_business_days (Some (lr_start_date self))
                                             (Some (lr_end_date self)) ;;
                Ok (lr_set_total_days (inject_Z n) self)
           else Ok self) ;;
  let rows := save_row lr_pk lr_set_pk (leave_requests db) self in
  Ok (set_leave_requests db rows, self).

(** [LeaveRequest.approve]: no check of the current status; the second
    component tells whether [send_status_notification] was called. *)
Definition approve (db : DB) (self : LeaveRequest) (approved_by_user : key)
    (now : Z) : result (DB * bool) :=
  let old_status := lr_status self in
  let self := lr_decide APPROVED (Some approved_by_user) (Some now)
                        (lr_rejection_reason self) self in
  r <- LeaveRequest_save db self ;;
  Ok (fst r, negb (Status_eqb old_status APPROVED)).

(** [LeaveRequest.reject]. *)
Definition reject (db : DB) (self : LeaveRequest) (rejected_by_user : key)
    (reason : string) (now : Z) : result (DB * bool) :=
  let old_status := lr_status self in
  let self := lr_decide REJECTED (Some rejected_by_user) (Some now) reason self in
  r <- LeaveRequest_save db self ;;
  Ok (fst r, negb (Status_eqb old_status REJECTED)).

(** ** models.py: LeaveEntitlement *)

(** [LeaveEntitlement.used_days]: the [Sum] of [total_days] over the user's
    APPROVED requests of this type whose start date is in this year, or 0. *)
Definition used_days (db : DB) (self : LeaveEntitlement) : Decimal :=
  decimal_sum
    (map lr_total_days
       (filter (fun r => Pos.eqb (lr_user r) (le_user self)
                         && Pos.eqb (lr_leave_type r) (le_leave_type self)
                         && (year_of (lr_start_date r) =? le_year self)
                         && Status_eqb (lr_status r) APPROVED)
               (leave_requests db))).

(** [LeaveEntitlement.remaining_days]. *)
Definition remaining_days (db : DB) (self : LeaveEntitlement) : Decimal :=
  (le_allocated_days self - used_days db self)%Q.

(** [LeaveEntitlement.objects.get(user=, leave_type=, year=)]. *)
Definition get_entitlement (db : DB) (user leave_type : key) (year : Z)
    : result LeaveEntitlement :=
  objects_get
    (filter (fun e => Pos.eqb (le_user e) user
                      && Pos.eqb (le_leave_type e) leave_type
                      && (le_year e =? year))
            (leave_entitlements db)).

(** [User.get_leave_balance]; [today] stands for [date.today()].  Only
    [DoesNotExist] is caught. *)
Definition get_leave_balance (db : DB) (self : User) (leave_type : key)
    (year : option Z) (today : date) : result Decimal :=
  let year := match year with Some y => y | None => year_of today end in
  match get_entitlement db (u_id self) leave_type year with
  | Ok entitlement => Ok (remaining_days db entitlement)
  | Raise DoesNotExist => Ok 0%Q
  | Raise e => Raise e
  end.

(** ** models.py: TimeEntry *)

(** [LeaveRequest.objects.filter(user=, status="APPROVED",
    start_date__lte=d, end_date__gte=d).exists()]. *)
Definition is_leave_day (db : DB) (user : key) (d : date) : bool :=
  existsb (fun r => Pos.eqb (lr_user r) user
                    && Status_eqb (lr_status r) APPROVED
                    && (lr_start_date r <=? d) && (d <=? lr_end_date r))
          (leave_requests db).

(** The rows of [TimeEntry.objects.filter(user=, date=)], without the row
    [pk] when one is given. *)
Definition entries_on (rows : list TimeEntry) (user : key) (d : date)
    (pk : option key) : list TimeEntry :=
  let qs := filter (fun r => Pos.eqb (te_user r) user && (te_date r =? d)) rows in
  match pk with
  | Some k => filter (fun r => negb (opt_key_eqb (te_pk r) (Some k))) qs
  | None => qs
  end.

(** [TimeEntry.clean]. *)
Definition TimeEntry_clean (db : DB) (self : TimeEntry) : result unit :=
  if is_leave_day db (te_user self) (te_date self) then Ok tt
  else
    let qs := entries_on (time_entries db) (te_user self) (te_date self) (te_pk self) in
    let total := decimal_sum (map te_hours qs) in
    if decimal_gt (total + te_hours self)%Q DAILY_CAP
    then Raise (ValidationError (would_exceed (te_hours self) (te_date self)))
    else Ok tt.

Definition te_set_pk (k : key) (e : TimeEntry) : TimeEntry :=
  {| te_pk := Some k; te_user := te_user e; te_project := te_project e;
     te_date := te_date e; te_hours := te_hours e; te_submitted := te_submitted e |}.

Section TimeEntries.

(** The framework's part of [Model.full_clean]: the validators of the fields
    ([clean_fields]) and the uniqueness check ([validate_unique]), as a
    function of the store and the instance. *)
Variable clean_fields : DB -> TimeEntry -> bool.

(** [Model.full_clean]: runs the framework's checks and [clean], and raises
    one [ValidationError] when any of them failed. *)
Definition TimeEntry_full_clean (db : DB) (self : TimeEntry) : result unit :=
  _ <- TimeEntry_clean db self ;;
  if clean_fields db self then Ok tt
  else Raise (ValidationError field_errors).

(** [TimeEntry.save]: [full_clean], then the write. *)
Definition TimeEntry_save (db : DB) (self : TimeEntry) : result DB :=
  _ <- TimeEntry_full_clean db self ;;
  Ok (set_time_entries db (save_row te_pk te_set_pk (time_entries db) self)).


End TimeEntries.

(** ** Requests and responses *)

(** [messages.error], [messages.success], [messages.warning], [messages.info]. *)
Inductive level : Type := error | success | warning | info.

Inductive response : Type :=
| redirect                              (* redirect(...) *)
| render                                (* render(request, template, context) *)
| render_form (errors : list text)      (* the leave form re-rendered with its errors *)
| HttpResponse (status : Z)
| JsonResponse (status : Z).

(** What a view call ends in: a response, with the messages queued for the
    user, or an exception that no handler of the view catches. *)
Inductive outcome : Type :=
| Responded (msgs : list (level * text)) (r : response)
| Uncaught (e : exn).

(** A view whose body raised leaves the store as it was (every write of these
    views is either the last statement that can raise or inside
    [transaction.atomic()]). *)
Definition run_view (db : DB) (body : result (DB * outcome)) : DB * outcome :=
  match body with
  | Ok r => r
  | Raise e => (db, Uncaught e)
  end.




(** ** views.py: weekly_timesheet *)












Section Timesheet.

Variable clean_fields : DB -> TimeEntry -> bool.



End Timesheet.

(** ** forms.py: LeaveRequestForm *)

(** The posted leave form, field by field as the form fields parse them:
    [None] stands for a value that is missing or not of the field's type. *)
Record leave_form : Type := {
  f_leave_type : option key;
  f_start_date : option date;
  f_end_date : option date;
  f_comments : string
}.

(** [LeaveRequest.objects.filter(user=, status__in=["PENDING", "APPROVED"],
    start_date__lte=end_date, end_date__gte=start_date)], without the form's
    own instance when it has a primary key. *)
Definition overlapping (db : DB) (user : key) (instance_pk : option key)
    (start_date end_date : date) : list LeaveRequest :=
  let qs :=
    filter (fun r => Pos.eqb (lr_user r) user
                     && (Status_eqb (lr_status r) PENDING
                         || Status_eqb (lr_status r) APPROVED)
                     && (lr_start_date r <=? end_date)
                     && (start_date <=? lr_end_date r))
           (leave_requests db) in
  match instance_pk with
  | Some k => filter (fun r => negb (opt_key_eqb (lr_pk r) (Some k))) qs
  | None => qs
  end.

(** [LeaveRequestForm.clean]; the result is [cleaned_data["total_days"]],
    [None] when the method returns before setting it. *)
Definition LeaveRequestForm_clean (db : DB) (user : option User)
    (instance_pk : option key) (today : date)
    (start_date end_date : option date) : result (option Z) :=
  match start_date, end_date with
  | Some start_date, Some end_date =>
      if start_date >? end_date then Raise (ValidationError start_after_end)
      else if start_date <? today then Raise (ValidationError start_before_today)
      else
        _ <- match user with
             | Some user =>
                 match overlapping db (u_id user) instance_pk start_date end_date with
                 | _ :: _ => Raise (ValidationError overlapping_request)
                 | [] => Ok tt
                 end
             | None => Ok tt
             end ;;
        total_days <- calculate_business_days (Some start_date) (Some end_date) ;;
        Ok (Some total_days)
  | _, _ => Ok None
  end.

(** [LeaveRequest.clean] of models.py, which the model form runs after its
    own [clean]. *)
Definition LeaveRequest_clean (start_date end_date : option date) (today : date)
    : result unit :=
  match start_date, end_date with
  | Some start_date, Some end_date =>
      if start_date >? end_date then Raise (ValidationError start_after_end)
      else if start_date <? today then Raise (ValidationError start_in_past)
      else Ok tt
  | _, _ => Ok tt
  end.

(** The form machinery turns a [ValidationError] into an error of the form;
    any other exception passes through. *)
Definition catch_validation {A : Type} (r : result A) : result (list text * option A) :=
  match r with
  | Ok a => Ok ([], Some a)
  | Raise (ValidationError msg) => Ok ([msg], None)
  | Raise e => Raise e
  end.

(** [form.is_valid()] followed by [form.save(commit=False)] and the view's
    [leave_request.user = request.user]: the errors of the form, or the new
    instance.  The leave type must be one of
    [LeaveType.objects.filter(active=True)]; the three fields are required. *)
Definition LeaveRequestForm_is_valid (db : DB) (user : User) (today : date)
    (form : leave_form) : result (list text + LeaveRequest) :=
  let leave_type :=
    match f_leave_type form with
    | Some t =>
        if existsb (fun x => Pos.eqb (lt_id x) t && lt_active x) (leave_types db)
        then Some t else None
    | None => None
    end in
  let start_date := f_start_date form in
  let end_date := f_end_date form in
  c <- catch_validation
         (LeaveRequestForm_clean db (Some user) None today start_date end_date) ;;
  m <- catch_validation (LeaveRequest_clean start_date end_date today) ;;
  match leave_type, start_date, end_date, fst c ++ fst m, snd c with
  | Some t, Some s, Some e, [], Some (Some total_days) =>
      Ok (inr {| lr_pk := None; lr_user := u_id user; lr_leave_type := t;
                 lr_start_date := s; lr_end_date := e;
                 lr_total_days := inject_Z total_days;
                 lr_comments := f_comments form; lr_status := PENDING;
                 lr_approved_by := None; lr_approved_at := None;
                 lr_rejection_reason := EmptyString |})
  | Some _, Some _, Some _, errs, _ => Ok (inl errs)
  | _, _, _, errs, _ => Ok (inl (field_errors :: errs))
  end.

(** ** views.py: the leave workflow *)

Definition get_user (db : DB) (id : key) : result User :=
  objects_get (filter (fun u => Pos.eqb (u_id u) id) (users db)).

(** [send_confirmation_email]: [False] without an email address. *)
Definition send_confirmation_email (user : User) : bool :=
  negb (String.eqb (u_email user) EmptyString).

(** [send_manager_notification]: [False] without a manager or without the
    manager's email address; the view turns an exception into [False] too. *)
Definition send_manager_notification (db : DB) (user : User) : bool :=
  match u_manager user with
  | None => false
  | Some m =>
      match get_user db m with
      | Ok manager => negb (String.eqb (u_email manager) EmptyString)
      | Raise _ => false
      end
  end.

(** The messages queued after a request was saved. *)
Definition submission_messages (r : LeaveRequest) (confirmation manager : bool)
    : list (level * text) :=
  let done := (success, leave_submitted (lr_total_days r) (lr_start_date r)
                          (lr_end_date r) confirmation manager) in
  match confirmation, manager with
  | true, true => [done; (info, view_my_requests)]
  | true, false => [(warning, no_manager_notification); done; (info, view_my_requests)]
  | false, true => [(warning, no_confirmation_email); done; (info, view_my_requests)]
  | false, false => [(warning, email_unavailable); done; (info, view_my_requests)]
  end.

(** [leave_request_form], for a POST request of [user]. *)
Definition leave_request_form (db : DB) (user : User) (today : date)
    (form : leave_form) : DB * outcome :=
  run_view db
    (v <- LeaveRequestForm_is_valid db user today form ;;
     match v with
     | inl errs => Ok (db, Responded [] (render_form errs))
     | inr leave_request =>
         leave_request <-
           (if decimal_is_zero (lr_total_days leave_request)
            then n <- calculate_business_days (Some (lr_start_date leave_request))
                                              (Some (lr_end_date leave_request)) ;;
                 Ok (lr_set_total_days (inject_Z n) leave_request)
            else Ok leave_request) ;;
         match get_entitlement db (lr_user leave_request) (lr_leave_type leave_request)
                 (year_of (lr_start_date leave_request)) with
         | Ok entitlement =>
             if decimal_gt (lr_total_days leave_request) (remaining_days db entitlement)
             then Ok (db, Responded
                            [(error, insufficient_balance (remaining_days db entitlement)
                                       (lr_leave_type leave_request))]
                            (render_form []))
             else
               r <- LeaveRequest_save db leave_request ;;
               Ok (fst r,
                   Responded (submission_messages (snd r)
                                (send_confirmation_email user)
                                (send_manager_notification db user))
                             redirect)
         | Raise DoesNotExist =>
             Ok (db, Responded
                       [(error, no_entitlement (lr_leave_type leave_request)
                                  (year_of (lr_start_date leave_request)))]
                       (render_form []))
         | Raise e => Raise e
         end
     end).

Inductive http_method : Type := GET | POST.

(** [request.POST.get("action")] of [approve_reject_leave]. *)
Inductive decision : Type := decide_approve | decide_reject | decide_other.

(** The attributes of the request that [approve_reject_leave] and
    [cancel_leave_request] read; [req_reason] is the posted rejection reason
    after [strip()]. *)
Record HttpRequest : Type := {
  req_user : User;
  req_method : http_method;
  req_decision : decision;
  req_reason : string
}.

(** [request.id]: [HttpRequest] has no attribute [id] (the id of the leave
    request is the view's argument [request_id]). *)
Definition HttpRequest_id (request : HttpRequest) : result Z :=
  Raise AttributeError.

(** [get_object_or_404(LeaveRequest, pk=request_id)], with [user=] when an
    owner is given. *)
Definition get_leave_request_or_404 (db : DB) (request_id : Z) (owner : option key)
    : result LeaveRequest :=
  match objects_get
          (filter (fun r =>
                     match lr_pk r with
                     | Some k => Z.pos k =? request_id
                     | None => false
                     end
                     && match owner with
                        | Some u => Pos.eqb (lr_user r) u
                        | None => true
                        end)
                  (leave_requests db)) with
  | Raise DoesNotExist => Raise Http404
  | r => r
  end.

(** [approve_reject_leave]. *)
Definition approve_reject_leave (db : DB) (request : HttpRequest) (request_id : Z)
    (now : Z) : DB * outcome :=
  run_view db
    (leave_request <- get_leave_request_or_404 db request_id None ;;
     owner <- get_user db (lr_user leave_request) ;;
     if negb (is_manager_of (req_user request) owner)
     then
       (* logger.warning(f"User {request.user} attempted to approve/reject
          request {request.id} wihout permission") *)
       _ <- HttpRequest_id request ;;
       Ok (db, Responded [] (JsonResponse 403))
     else
       match req_method request with
       | POST =>
           match req_decision request with
           | decide_approve =>
               match approve db leave_request (u_id (req_user request)) now with
               | Ok r => Ok (fst r, Responded [(success, leave_approved)] (HttpResponse 200))
               | Raise _ => Ok (db, Responded [(error, approve_failed)] (HttpResponse 500))
               end
           | decide_reject =>
               let reason := req_reason request in
               if String.eqb reason EmptyString
               then Ok (db, Responded [(error, reason_required)] (HttpResponse 400))
               else
                 match reject db leave_request (u_id (req_user request)) reason now with
                 | Ok r => Ok (fst r, Responded [(success, leave_rejected)] (HttpResponse 200))
                 | Raise _ => Ok (db, Responded [(error, reject_failed)] (HttpResponse 500))
                 end
           | decide_other => Ok (db, Responded [] (HttpResponse 400))
           end
       | GET => Ok (db, Responded [] (HttpResponse 405))
       end).

(** [cancel_leave_request]. *)
Definition cancel_leave_request (db : DB) (request : HttpRequest) (request_id : Z)
    : DB * outcome :=
  run_view db
    (leave_request <- get_leave_request_or_404 db request_id
                        (Some (u_id (req_user request))) ;;
     if negb (Status_eqb (lr_status leave_request) PENDING)
     then Ok (db, Responded [] (HttpResponse 400))
     else
       r <- LeaveRequest_save db
              (lr_decide CANCELLED (lr_approved_by leave_request)
                 (lr_approved_at leave_request)
                 (lr_rejection_reason leave_request) leave_request) ;;
       Ok (fst r, Responded [] (HttpResponse 204))).

(** ** Vocabulary of the statements *)

(** The [n] consecutive dates from [d] on. *)
Fixpoint days_from (d : date) (n : nat) : list date :=
  match n with
  | O => []
  | S n => d :: days_from (d + 1) n
  end.

(** The dates of the closed range [[start_date, end_date]]. *)
Definition date_range (start_date end_date : date) : list date :=
  days_from start_date (Z.to_nat (end_date - start_date + 1)).

(** Monday to Friday. *)
Definition is_business_day (d : date) : bool := weekday d <? 5.

(** The number of business days of the closed range. *)
Definition business_days_between (start_date end_date : date) : Z :=
  Z.of_nat (List.length (filter is_business_day (date_range start_date end_date))).

(** The sum of the hours of [user] on [d], across all projects. *)
Definition hours_on (rows : list TimeEntry) (user : key) (d : date) : Decimal :=
  decimal_sum (map te_hours (entries_on rows user d None)).

(** Primary keys identify the rows of the time entry table. *)
Definition time_entry_pks_unique (db : DB) : Prop :=
  NoDup (map te_pk (time_entries db)).




(** The entitlement row is the one of (user, leave type, year). *)
Definition entitlement_for (e : LeaveEntitlement) (user leave_type : key) (year : Z)
    : Prop :=
  le_user e = user /\ le_leave_type e = leave_type /\ le_year e = year.

(** [unique_together = ("user", "leave_type", "year")]. *)
Definition entitlements_unique (db : DB) : Prop :=
  NoDup (map (fun e => (le_user e, le_leave_type e, le_year e)) (leave_entitlements db)).

(** PENDING or APPROVED. *)
Definition is_active (r : LeaveRequest) : bool :=
  Status_eqb (lr_status r) PENDING || Status_eqb (lr_status r) APPROVED.

(** The closed date ranges of the two requests intersect. *)
Definition ranges_overlap (a b : LeaveRequest) : bool :=
  (lr_start_date a <=? lr_end_date b) && (lr_start_date b <=? lr_end_date a).

(** No two requests of one user that are both PENDING or APPROVED overlap. *)
Definition no_overlapping_active (db : DB) : Prop :=
  forall a b,
    In a (leave_requests db) -> In b (leave_requests db) ->
    lr_pk a <> lr_pk b -> lr_user a = lr_user b ->
    is_active a = true -> is_active b = true ->
    ranges_overlap a b = false.

(** The operations of the leave workflow, as requests to its three views. *)
Inductive operation : Type :=
| op_create (user : User) (today : date) (form : leave_form)
| op_decide (request : HttpRequest) (request_id : Z) (now : Z)
| op_cancel (request : HttpRequest) (request_id : Z).

(** The store after one operation, and after a sequence of them. *)
Definition step (db : DB) (op : operation) : DB :=
  match op with
  | op_create user today form => fst (leave_request_form db user today form)
  | op_decide request request_id now =>
      fst (approve_reject_leave db request request_id now)
  | op_cancel request request_id => fst (cancel_leave_request db request request_id)
  end.

Definition run (db : DB) (ops : list operation) : DB := fold_left step ops db.

(** The statuses of the leave requests, in table order. *)
Definition statuses (db : DB) : list Status := map lr_status (leave_requests db).

(** ** Example data *)

(** Monday 2024-01-01, and the five days of its week. *)
Definition monday : date := 738886.


(** An employee, her manager, and a colleague who manages nobody. *)
Definition alice : User :=
  {| u_id := 1%positive; u_manager := Some 2%positive; u_email := "alice@example.com" |}.

Definition bob : User :=
  {| u_id := 2%positive; u_manager := None; u_email := "bob@example.com" |}.

Definition carol : User :=
  {| u_id := 3%positive; u_manager := None; u_email := "carol@example.com" |}.

(** alice's entitlement: 25 days of leave type 1 in 2024. *)
Definition alice_annual_2024 : LeaveEntitlement :=
  {| le_user := 1%positive; le_leave_type := 1%positive; le_year := 2024;
     le_allocated_days := 25%Q |}.

(** A store with one project, of which alice is a member, one leave type and
    alice's entitlement; no leave requests and no time entries. *)
Definition db0 : DB :=
  {| users := [alice; bob; carol];
     projects := [{| p_id := 1%positive; p_active := true; p_members := [1%positive] |}];
     leave_types := [{| lt_id := 1%positive; lt_active := true |}];
     leave_entitlements := [alice_annual_2024];
     leave_requests := [];
     time_entries := [] |}.

(** Field validation that accepts every row. *)
Definition accept_fields (db : DB) (e : TimeEntry) : bool := true.

(** alice's entry of [hrs] hours on [d] for the project, not yet saved. *)
Definition new_entry (d : date) (hrs : Decimal) : TimeEntry :=
  {| te_pk := None; te_user := 1%positive; te_project := Some 1%positive; te_date := d;
     te_hours := hrs; te_submitted := false |}.

(** [db0] with five hours logged by alice on Monday. *)
Definition db_five_hours : DB :=
  set_time_entries db0 [te_set_pk 1%positive (new_entry monday 5%Q)].





(** Leave from Monday 2024-01-08 to Wednesday 2024-01-10, and from Tuesday
    2024-01-09 to Thursday 2024-01-11. *)
Definition form_a : leave_form :=
  {| f_leave_type := Some 1%positive; f_start_date := Some (monday + 7);
     f_end_date := Some (monday + 9); f_comments := EmptyString |}.

Definition form_b : leave_form :=
  {| f_leave_type := Some 1%positive; f_start_date := Some (monday + 8);
     f_end_date := Some (monday + 10); f_comments := EmptyString |}.

(** Leave on Wednesday 2025-01-01, a year for which [db0] has no entitlement. *)
Definition form_2025 : leave_form :=
  {| f_leave_type := Some 1%positive; f_start_date := Some 739252;
     f_end_date := Some 739252; f_comments := EmptyString |}.

(** A POST request of [user] with this decision and rejection reason. *)
Definition request_of (user : User) (d : decision) (reason : string) : HttpRequest :=
  {| req_user := user; req_method := POST; req_decision := d; req_reason := reason |}.

(** alice asks for [form_a], cancels, asks for the overlapping [form_b], and
    bob then approves the cancelled request 1. *)
Definition reapproval_run : list operation :=
  [op_create alice monday form_a;
   op_cancel (request_of alice decide_other EmptyString) 1;
   op_create alice monday form_b;
   op_decide (request_of bob decide_approve EmptyString) 1 0].

(** [db0] after alice asked for [form_a]: request 1, PENDING. *)
Definition db_pending : DB := run db0 [op_create alice monday form_a].

(** The same after bob approved, and after bob rejected, request 1. *)
Definition db_approved : DB :=
  step db_pending (op_decide (request_of bob decide_approve EmptyString) 1 0).

Definition db_rejected : DB :=
  step db_pending (op_decide (request_of bob decide_reject "no cover") 1 0).

(** The same after alice cancelled request 1. *)
Definition db_cancelled : DB :=
  step db_pending (op_cancel (request_of alice decide_other EmptyString) 1).

(* ===================================================================== *)
(** * Part II: properties                                                 *)
(* ===================================================================== *)

(** ** Results and dates *)

Lemma bind_Ok_inv (A B : Type) (r : result A) (k : A -> result B) (b : B) :
  bind r k = Ok b -> exists a, r = Ok a /\ k a = Ok b.
Proof.
  destruct r as [a|e]; simpl; intros H; [eauto | discriminate].
Qed.

Lemma valid_dateb_spec (d : date) : valid_dateb d = true <-> valid_date d.
Proof.
  unfold valid_dateb, valid_date. rewrite andb_true_iff, !Z.leb_le. tauto.
Qed.

Lemma add_days_valid (d : date) (n : Z) :
  valid_date (d + n) -> add_days d n = Ok (d + n).
Proof.
  intros H. unfold add_days. apply valid_dateb_spec in H. now rewrite H.
Qed.


Lemma in_days_from (n : nat) (d x : date) :
  In x (days_from d n) <-> d <= x < d + Z.of_nat n.
Proof.
  revert d. induction n as [|n IH]; intros d; simpl days_from.
  - simpl. lia.
  - simpl In. rewrite IH. lia.
Qed.

(** The range holds exactly the dates between its ends. *)
Lemma in_date_range (s e x : date) :
  In x (date_range s e) <-> s <= x <= e.
Proof.
  unfold date_range. rewrite in_days_from. lia.
Qed.


(** ** The date loop *)

Lemma while_date_le_step (A : Type) (body : date -> A -> A) (e c : date) (acc : A) :
  while_date_le body e c acc =
  if c <=? e
  then match add_days c 1 with
       | Ok next => while_date_le body e next (body c acc)
       | Raise x => Raise x
       end
  else Ok acc.
Proof.
  funelim (while_date_le body e c acc);
    repeat match goal with
           | H : (_ <=? _) = _ |- _ => rewrite H
           | H : add_days _ _ = _ |- _ => rewrite H
           end; reflexivity.
Qed.

(** When the day after [e] is still a date, the loop folds its body over
    the closed range, in order. *)
Lemma while_date_le_fold (A : Type) (body : date -> A -> A) (n : nat) :
  forall (e c : date) (acc : A),
    MINORDINAL <= c -> e < MAXORDINAL -> Z.of_nat n = Z.max 0 (e - c + 1) ->
    while_date_le body e c acc =
    Ok (fold_left (fun a d => body d a) (days_from c n) acc).
Proof.
  induction n as [|n IH]; intros e c acc Hc He Hn;
    rewrite while_date_le_step.
  - destruct (c <=? e) eqn:E; [apply Z.leb_le in E; lia | reflexivity].
  - destruct (c <=? e) eqn:E; [apply Z.leb_le in E | apply Z.leb_gt in E; lia].
    rewrite add_days_valid by (unfold valid_date; lia).
    simpl. apply IH; lia.
Qed.

Lemma while_date_le_range (A : Type) (body : date -> A -> A) (s e : date) (acc : A) :
  MINORDINAL <= s -> e < MAXORDINAL ->
  while_date_le body e s acc =
  Ok (fold_left (fun a d => body d a) (date_range s e) acc).
Proof.
  intros Hs He. unfold date_range. apply while_date_le_fold; lia.
Qed.

(** At the last date the increment that follows the last iteration fails. *)
Lemma while_date_le_overflow (A : Type) (body : date -> A -> A) (acc : A) :
  while_date_le body date_max date_max acc = Raise OverflowError.
Proof.
  rewrite while_date_le_step. reflexivity.
Qed.

(** ** C1: business days *)

Lemma count_fold (l : list date) (n : Z) :
  fold_left (fun a d => if weekday d <? 5 then a + 1 else a) l n =
  n + Z.of_nat (List.length (filter is_business_day l)).
Proof.
  revert n. induction l as [|d l IH]; intros n; simpl.
  - lia.
  - rewrite IH. unfold is_business_day.
    destruct (weekday d <? 5); simpl List.length; lia.
Qed.

Lemma filter_all (A : Type) (f : A -> bool) (l : list A) :
  (forall x, In x l -> f x = true) -> filter f l = l.
Proof.
  induction l as [|a l IH]; intros H; simpl; [reflexivity|].
  rewrite (H a) by now left. f_equal. apply IH. intros x Hx. apply H. now right.
Qed.

Lemma length_days_from (n : nat) (d : date) : List.length (days_from d n) = n.
Proof.
  revert d. induction n as [|n IH]; intros d; simpl; [reflexivity|]. now rewrite IH.
Qed.

(** Every range that ends at the last date makes the loop leave the dates:
    no count is returned for it. *)
Lemma while_date_le_date_max (A : Type) (body : date -> A -> A) (n : nat) :
  forall (c : date) (acc : A),
    MINORDINAL <= c -> Z.of_nat n = date_max - c ->
    while_date_le body date_max c acc = Raise OverflowError.
Proof.
  unfold date_max.
  induction n as [|n IH]; intros c acc Hc Hn; rewrite while_date_le_step.
  - replace c with MAXORDINAL by lia. reflexivity.
  - destruct (c <=? MAXORDINAL) eqn:E; [|apply Z.leb_gt in E; lia].
    rewrite add_days_valid by (unfold valid_date; lia).
    apply IH; lia.
Qed.

Lemma calculate_business_days_overflow (start_date : date) :
  valid_date start_date ->
  calculate_business_days (Some start_date) (Some date_max) = Raise OverflowError.
Proof.
  intros [Hs He]. unfold calculate_business_days.
  apply (while_date_le_date_max _ (Z.to_nat (date_max - start_date))).
  - exact Hs.
  - unfold date_max. lia.
Qed.

(** C1, the claim at its failing input: for the single-day range that ends
    at the last date (9999-12-31, a Friday) the count of weekdays is 1, and
    the calculation raises [OverflowError] instead of returning it. *)
Lemma calculate_business_days_date_max :
  valid_date date_max /\ date_max <= date_max /\ weekday date_max < 5 /\
  business_days_between date_max date_max = 1 /\
  calculate_business_days (Some date_max) (Some date_max) = Raise OverflowError /\
  calculate_business_days (Some date_max) (Some date_max)
  <> Ok (business_days_between date_max date_max).
Proof.
  repeat split; vm_compute; congruence.
Qed.

(** C1 (amended): for every pair of dates [start_date <= end_date] with
    [end_date] before the last date 9999-12-31, [calculate_business_days]
    returns the number of dates of the closed range whose weekday is Monday
    to Friday; when both dates are the same weekday the result is 1, and for
    a range of weekdays only it is the number of days of the range. *)
Theorem calculate_business_days_correct (start_date end_date : date) :
  valid_date start_date -> start_date <= end_date -> end_date < date_max ->
  calculate_business_days (Some start_date) (Some end_date)
  = Ok (business_days_between start_date end_date)
  /\ (start_date = end_date -> weekday start_date < 5 ->
      business_days_between start_date end_date = 1)
  /\ ((forall d, start_date <= d <= end_date -> weekday d < 5) ->
      business_days_between start_date end_date = end_date - start_date + 1).
Proof.
  intros [Hs _] Hle He. split; [|split].
  - unfold calculate_business_days.
    rewrite while_date_le_range by (auto; exact He).
    rewrite count_fold. reflexivity.
  - intros <- Hw. unfold business_days_between, date_range.
    replace (start_date - start_date + 1) with 1 by lia. simpl.
    unfold is_business_day. apply Z.ltb_lt in Hw. now rewrite Hw.
  - intros Hall. unfold business_days_between.
    rewrite filter_all.
    + unfold date_range. rewrite length_days_from. lia.
    + intros x Hx. apply in_date_range in Hx. unfold is_business_day.
      apply Z.ltb_lt. now apply Hall.
Qed.

(** The week of Monday 2024-01-01 to Sunday 2024-01-07 has five business days. *)
Lemma calculate_business_days_correct_witness :
  calculate_business_days (Some 738886) (Some 738892) = Ok 5.
Proof.
  apply (calculate_business_days_correct (start_date := 738886) (end_date := 738892));
    unfold valid_date, date_max, MINORDINAL, MAXORDINAL; lia.
Defined.

(** ** Decimals and tables *)

Lemma fold_Qplus_acc (xs : list Q) (a : Q) :
  (fold_left Qplus xs a == a + fold_left Qplus xs 0)%Q.
Proof.
  revert a. induction xs as [|x xs IH]; intros a; simpl.
  - lra.
  - rewrite IH. rewrite (IH (0 + x)%Q). lra.
Qed.

Lemma decimal_sum_cons (x : Q) (xs : list Q) : (decimal_sum (x :: xs) == x + decimal_sum xs)%Q.
Proof.
  unfold decimal_sum. simpl. rewrite fold_Qplus_acc. lra.
Qed.

Lemma decimal_sum_app (xs ys : list Q) : (decimal_sum (xs ++ ys)%list == decimal_sum xs + decimal_sum ys)%Q.
Proof.
  induction xs as [|x xs IH]; simpl.
  - unfold decimal_sum at 2. simpl. lra.
  - rewrite !decimal_sum_cons, IH. lra.
Qed.

Lemma decimal_gt_spec (x y : Q) : decimal_gt x y = true <-> (y < x)%Q.
Proof.
  unfold decimal_gt. rewrite negb_true_iff. split.
  - intros H. apply Qnot_le_lt. intros Hle. apply Qle_bool_iff in Hle. congruence.
  - intros H. destruct (Qle_bool x y) eqn:E; [|reflexivity].
    apply Qle_bool_iff in E. apply Qlt_not_le in H. contradiction.
Qed.

Lemma decimal_gt_false (x y : Q) : decimal_gt x y = false <-> (x <= y)%Q.
Proof.
  unfold decimal_gt. rewrite negb_false_iff. apply Qle_bool_iff.
Qed.

Lemma opt_key_eqb_eq (a b : option key) : opt_key_eqb a b = true <-> a = b.
Proof.
  destruct a as [x|], b as [y|]; simpl; try (split; congruence).
  rewrite Pos.eqb_eq. split; congruence.
Qed.

Lemma entries_on_no_pk (rows : list TimeEntry) (u : key) (d : date) (k : key) :
  existsb (fun r => opt_key_eqb (te_pk r) (Some k)) rows = false ->
  entries_on rows u d (Some k) = entries_on rows u d None.
Proof.
  intros H. unfold entries_on. apply filter_all.
  intros x Hx. apply filter_In in Hx. destruct Hx as [Hx _].
  destruct (opt_key_eqb (te_pk x) (Some k)) eqn:E; [|reflexivity].
  assert (existsb (fun r => opt_key_eqb (te_pk r) (Some k)) rows = true)
    by (apply existsb_exists; eauto).
  congruence.
Qed.

Lemma map_replace_absent (rows : list TimeEntry) (k : key) (self : TimeEntry) :
  ~ In (Some k) (map te_pk rows) ->
  map (fun r => if opt_key_eqb (te_pk r) (Some k) then self else r) rows = rows.
Proof.
  induction rows as [|r rows IH]; simpl; intros H; [reflexivity|].
  destruct (opt_key_eqb (te_pk r) (Some k)) eqn:E.
  - apply opt_key_eqb_eq in E. tauto.
  - f_equal. apply IH. tauto.
Qed.

Lemma filter_absent (rows : list TimeEntry) (k : key) :
  ~ In (Some k) (map te_pk rows) ->
  filter (fun r => negb (opt_key_eqb (te_pk r) (Some k))) rows = rows.
Proof.
  intros H. apply filter_all. intros x Hx.
  destruct (opt_key_eqb (te_pk x) (Some k)) eqn:E; [|reflexivity].
  apply opt_key_eqb_eq in E. exfalso. apply H. rewrite <- E. now apply in_map.
Qed.

Lemma filter_comm (A : Type) (f g : A -> bool) (l : list A) :
  filter f (filter g l) = filter g (filter f l).
Proof.
  induction l as [|a l IH]; simpl; [reflexivity|].
  destruct (f a) eqn:Ef, (g a) eqn:Eg; simpl; rewrite ?Ef, ?Eg, IH; reflexivity.
Qed.

Lemma hours_on_replace (rows : list TimeEntry) (self : TimeEntry) (k : key) :
  NoDup (map te_pk rows) ->
  existsb (fun r => opt_key_eqb (te_pk r) (Some k)) rows = true ->
  (hours_on (map (fun r => if opt_key_eqb (te_pk r) (Some k) then self else r) rows)
            (te_user self) (te_date self)
   == decimal_sum (map te_hours (entries_on rows (te_user self) (te_date self) (Some k)))
      + te_hours self)%Q.
Proof.
  unfold hours_on, entries_on. rewrite filter_comm.
  induction rows as [|r rows IH]; simpl; intros Hnd Hex; [discriminate|].
  inversion Hnd as [|? ? Hnotin Hnd']; subst.
  destruct (opt_key_eqb (te_pk r) (Some k)) eqn:E; simpl.
  - apply opt_key_eqb_eq in E. rewrite E in Hnotin.
    rewrite map_replace_absent, filter_absent by assumption.
    rewrite Pos.eqb_refl, Z.eqb_refl. simpl. rewrite decimal_sum_cons. lra.
  - simpl in Hex. specialize (IH Hnd' Hex).
    destruct (Pos.eqb (te_user r) (te_user self) && (te_date r =? te_date self));
      simpl; rewrite ?decimal_sum_cons, IH; lra.
Qed.

Lemma entries_on_app (rows : list TimeEntry) (x : TimeEntry) (u : key) (d : date) :
  te_user x = u -> te_date x = d ->
  entries_on (rows ++ [x]) u d None = entries_on rows u d None ++ [x].
Proof.
  intros <- <-. unfold entries_on. rewrite filter_app. simpl.
  now rewrite Pos.eqb_refl, Z.eqb_refl.
Qed.

Lemma hours_on_save_row (rows : list TimeEntry) (self : TimeEntry) :
  NoDup (map te_pk rows) ->
  (hours_on (save_row te_pk te_set_pk rows self) (te_user self) (te_date self)
   == decimal_sum (map te_hours (entries_on rows (te_user self) (te_date self) (te_pk self)))
      + te_hours self)%Q.
Proof.
  intros Hnd. unfold save_row. destruct (te_pk self) as [k|] eqn:Hpk.
  - destruct (existsb _ rows) eqn:Hex.
    + now apply hours_on_replace.
    + rewrite (entries_on_no_pk _ _ _ _ Hex). unfold hours_on.
      rewrite entries_on_app by reflexivity.
      rewrite map_app, decimal_sum_app. simpl. unfold decimal_sum at 2. simpl. lra.
  - unfold hours_on. rewrite entries_on_app by reflexivity.
    rewrite map_app, decimal_sum_app. simpl. unfold decimal_sum at 2. simpl. lra.
Qed.

(** ** C3: the daily cap at write time *)

Section DailyCap.

Variable clean_fields : DB -> TimeEntry -> bool.

Lemma TimeEntry_save_inv (db db' : DB) (self : TimeEntry) :
  TimeEntry_save clean_fields db self = Ok db' ->
  TimeEntry_clean db self = Ok tt /\
  db' = set_time_entries db (save_row te_pk te_set_pk (time_entries db) self).
Proof.
  unfold TimeEntry_save, TimeEntry_full_clean. intros H.
  destruct (TimeEntry_clean db self) as [[]|e]; simpl in H; [|discriminate].
  destruct (clean_fields db self); simpl in H; [|discriminate].
  injection H as <-. split; reflexivity.
Qed.

(** C3: on a date that no APPROVED leave request of the user covers, a save
    after which the user's hours on that date would exceed 7.5 raises a
    [ValidationError] and returns no new store; and after every save that
    succeeds the user's hours on that date, across all projects, are at most
    7.5. *)
Theorem TimeEntry_save_daily_cap (db : DB) (self : TimeEntry) :
  time_entry_pks_unique db ->
  is_leave_day db (te_user self) (te_date self) = false ->
  let after := save_row te_pk te_set_pk (time_entries db) self in
  ((DAILY_CAP < hours_on after (te_user self) (te_date self))%Q ->
   TimeEntry_save clean_fields db self
   = Raise (ValidationError (would_exceed (te_hours self) (te_date self))))
  /\ (forall db', TimeEntry_save clean_fields db self = Ok db' ->
        time_entries db' = after /\
        (hours_on (time_entries db') (te_user self) (te_date self) <= DAILY_CAP)%Q).
Proof.
  intros Hpk Hleave after. subst after.
  pose proof (@hours_on_save_row (time_entries db) self Hpk) as Hsum.
  split.
  - intros Hover. rewrite Hsum in Hover. apply decimal_gt_spec in Hover.
    unfold TimeEntry_save, TimeEntry_full_clean, TimeEntry_clean.
    rewrite Hleave, Hover. reflexivity.
  - intros db' Hsave. apply TimeEntry_save_inv in Hsave.
    destruct Hsave as [Hclean ->]. simpl. split; [reflexivity|].
    rewrite Hsum. unfold TimeEntry_clean in Hclean. rewrite Hleave in Hclean.
    destruct (decimal_gt _ DAILY_CAP) eqn:E; [discriminate|].
    now apply decimal_gt_false in E.
Qed.

End DailyCap.

(** With five hours logged on Monday, three more are refused. *)
Lemma TimeEntry_save_daily_cap_witness :
  TimeEntry_save accept_fields db_five_hours (new_entry monday 3%Q)
  = Raise (ValidationError (would_exceed 3%Q monday)).
Proof.
  apply (@TimeEntry_save_daily_cap accept_fields db_five_hours (new_entry monday 3%Q)).
  - repeat constructor; simpl; tauto.
  - reflexivity.
  - vm_compute. reflexivity.
Defined.

(** ** The approved leave overlay *)













(** ** The posted fields *)





(** ** Writing the parsed pairs *)

Lemma objects_get_Ok (A : Type) (qs : list A) (a : A) :
  objects_get qs = Ok a -> qs = [a].
Proof.
  destruct qs as [|x [|y qs]]; simpl; intros H; try discriminate.
  now injection H as ->.
Qed.









Section Writes.

Variable clean_fields : DB -> TimeEntry -> bool.




End Writes.

(** ** C2: submitting the week *)



Section Submit.

Variable clean_fields : DB -> TimeEntry -> bool.


End Submit.



(** ** C4: the cap on approved leave days *)






Section LeaveDayCap.

Variable clean_fields : DB -> TimeEntry -> bool.



End LeaveDayCap.



(** ** C7: the transitions of a leave request *)

(** [cancel_leave_request] changes nothing unless the request is PENDING. *)
Lemma cancel_leave_request_guard (db : DB) (request : HttpRequest) (request_id : Z)
    (r : LeaveRequest) :
  get_leave_request_or_404 db request_id (Some (u_id (req_user request))) = Ok r ->
  lr_status r <> PENDING ->
  cancel_leave_request db request request_id = (db, Responded [] (HttpResponse 400)).
Proof.
  intros Hget Hs. unfold cancel_leave_request. rewrite Hget. simpl.
  destruct (lr_status r); [contradiction | | |]; reflexivity.
Qed.

(** [approve] and [reject] write their status whatever the current one is. *)
Lemma approve_any_status (db db' : DB) (r : LeaveRequest) (by_user : key) (now : Z)
    (notified : bool) :
  approve db r by_user now = Ok (db', notified) ->
  exists r', In r' (leave_requests db') /\ lr_status r' = APPROVED /\
             lr_start_date r' = lr_start_date r /\ lr_end_date r' = lr_end_date r /\
             lr_user r' = lr_user r.
Proof.
  unfold approve, LeaveRequest_save. intros H.
  apply bind_Ok_inv in H. destruct H as [[db1 r1] [H1 H2]].
  injection H2 as <- _. simpl in H1.
  apply bind_Ok_inv in H1. destruct H1 as [r2 [H1 H2]].
  injection H2 as <- <-.
  assert (Hr2 : lr_status r2 = APPROVED /\ lr_start_date r2 = lr_start_date r /\
                lr_end_date r2 = lr_end_date r /\ lr_user r2 = lr_user r).
  { destruct (decimal_is_zero _); [|injection H1 as <-; simpl; tauto].
    apply bind_Ok_inv in H1. destruct H1 as [n [_ H1]].
    injection H1 as <-. simpl. tauto. }
  simpl. unfold save_row. destruct (lr_pk r2) as [k|] eqn:Hpk.
  - destruct (existsb _ (leave_requests db)) eqn:Hex.
    + apply existsb_exists in Hex. destruct Hex as [x [Hx E]].
      exists r2. split; [|exact Hr2]. apply in_map_iff. exists x. now rewrite E.
    + exists r2. split; [|exact Hr2]. apply in_or_app. right. now left.
  - exists (lr_set_pk (fresh_pk (map lr_pk (leave_requests db))) r2).
    split; [apply in_or_app; right; now left | exact Hr2].
Qed.

(** C7, the failing inputs: bob, alice's manager, approves her request 1
    after it was REJECTED and after she CANCELLED it, and rejects it after it
    was APPROVED; each time the status changes. *)
Theorem terminal_status_overwritten :
  statuses db_rejected = [REJECTED] /\
  statuses (step db_rejected
              (op_decide (request_of bob decide_approve EmptyString) 1 1))
  = [APPROVED] /\
  statuses db_cancelled = [CANCELLED] /\
  statuses (step db_cancelled
              (op_decide (request_of bob decide_approve EmptyString) 1 1))
  = [APPROVED] /\
  statuses db_approved = [APPROVED] /\
  statuses (step db_approved
              (op_decide (request_of bob decide_reject "no cover") 1 1))
  = [REJECTED].
Proof.
  repeat split; vm_compute; reflexivity.
Qed.

(** ** C6: overlapping requests *)

(** C6, the failing run: after [reapproval_run] alice's requests 1
    (APPROVED, 2024-01-08 to 2024-01-10) and 2 (PENDING, 2024-01-09 to
    2024-01-11) overlap. *)
Theorem overlap_after_reapproval :
  no_overlapping_active db0 /\
  statuses (run db0 reapproval_run) = [APPROVED; PENDING] /\
  ~ no_overlapping_active (run db0 reapproval_run).
Proof.
  split; [intros a b []|]. split; [vm_compute; reflexivity|].
  intros H.
  set (rows := leave_requests (run db0 reapproval_run)) in *.
  assert (Hrows : exists a b, rows = [a; b] /\ lr_pk a <> lr_pk b /\
                    lr_user a = lr_user b /\ is_active a = true /\
                    is_active b = true /\ ranges_overlap a b = true).
  { vm_compute. do 2 eexists. split; [reflexivity|].
    repeat split; try reflexivity. discriminate. }
  destruct Hrows as (a & b & Hrows & Hpk & Hu & Ha & Hb & Ho).
  assert (Hf : ranges_overlap a b = false).
  { apply H; try assumption; fold rows; rewrite Hrows; simpl; tauto. }
  congruence.
Qed.

(** ** C5: remaining days *)

(** [remaining_days] is the allocation minus the [total_days] of the user's
    APPROVED requests of the type that start in the year. *)
Lemma remaining_days_eq (db : DB) (e : LeaveEntitlement) :
  remaining_days db e
  = (le_allocated_days e
     - decimal_sum
         (map lr_total_days
            (filter (fun r => Pos.eqb (lr_user r) (le_user e)
                              && Pos.eqb (lr_leave_type r) (le_leave_type e)
                              && (year_of (lr_start_date r) =? le_year e)
                              && Status_eqb (lr_status r) APPROVED)
                    (leave_requests db))))%Q.
Proof. reflexivity. Qed.

(** C5, the failing input: with request 1 of three days APPROVED, 22 of
    alice's 25 days remain; bob's rejection of the approved request, which is
    no approval, changes the remaining days back to 25. *)
Theorem remaining_days_changed_by_reject :
  statuses db_approved = [APPROVED] /\
  remaining_days db_approved alice_annual_2024 = 22%Q /\
  remaining_days
    (step db_approved (op_decide (request_of bob decide_reject "no cover") 1 1))
    alice_annual_2024 = 25%Q.
Proof.
  repeat split; vm_compute; reflexivity.
Qed.

(** ** C8: approval by somebody who is not the manager *)

(** Whoever is not the direct manager of the owner gets no response from
    [approve_reject_leave]: formatting the log line raises [AttributeError]
    before the 403 response is built.  The store stays as it is. *)
Lemma approve_reject_leave_not_manager (db : DB) (request : HttpRequest)
    (request_id now : Z) (r : LeaveRequest) (owner : User) :
  get_leave_request_or_404 db request_id None = Ok r ->
  get_user db (lr_user r) = Ok owner ->
  is_manager_of (req_user request) owner = false ->
  approve_reject_leave db request request_id now = (db, Uncaught AttributeError).
Proof.
  intros Hr Ho Hm. unfold approve_reject_leave. rewrite Hr. simpl.
  rewrite Ho. simpl. rewrite Hm. reflexivity.
Qed.

(** C8, the failing input: carol, who is not alice's manager, posts an
    approval of alice's pending request 1; the view ends in an uncaught
    [AttributeError] instead of the 403 response.  The request is unchanged. *)
Theorem approve_by_non_manager_raises :
  is_manager_of carol alice = false /\
  approve_reject_leave db_pending (request_of carol decide_approve EmptyString) 1 0
  = (db_pending, Uncaught AttributeError) /\
  snd (approve_reject_leave db_pending
         (request_of carol decide_approve EmptyString) 1 0)
  <> Responded [] (JsonResponse 403).
Proof.
  repeat split; try (vm_compute; reflexivity). vm_compute. discriminate.
Qed.

(** ** C9: the entitlement check of a new leave request *)

Lemma catch_validation_Some (A : Type) (r : result A) (errs : list text) (a : A) :
  catch_validation r = Ok (errs, Some a) -> r = Ok a /\ errs = [].
Proof.
  destruct r as [v|x]; simpl.
  - intros [= <- <-]. split; reflexivity.
  - destruct x; discriminate.
Qed.

Lemma catch_validation_None (A : Type) (r : result A) (errs : list text) :
  catch_validation r = Ok (errs, None) -> exists msg, errs = [msg].
Proof.
  destruct r as [v|x]; simpl; [discriminate|].
  destruct x; try discriminate. intros [= <-]. eauto.
Qed.

(** A valid form: the posted leave type is active, the dates are in order
    and not in the past, nothing active overlaps, and the instance carries
    the business days of the range. *)
Lemma LeaveRequestForm_is_valid_inr (db : DB) (user : User) (today : date)
    (form : leave_form) (r : LeaveRequest) :
  LeaveRequestForm_is_valid db user today form = Ok (inr r) ->
  exists t s e n,
    f_leave_type form = Some t /\ f_start_date form = Some s /\
    f_end_date form = Some e /\ s <= e /\ today <= s /\
    overlapping db (u_id user) None s e = [] /\
    calculate_business_days (Some s) (Some e) = Ok n /\
    r = {| lr_pk := None; lr_user := u_id user; lr_leave_type := t;
           lr_start_date := s; lr_end_date := e; lr_total_days := inject_Z n;
           lr_comments := f_comments form; lr_status := PENDING;
           lr_approved_by := None; lr_approved_at := None;
           lr_rejection_reason := EmptyString |}.
Proof.
  unfold LeaveRequestForm_is_valid. intros H.
  apply bind_Ok_inv in H. destruct H as [[cerrs cval] [Hc H]].
  apply bind_Ok_inv in H. destruct H as [[merrs mval] [Hm H]].
  simpl in H.
  destruct (f_leave_type form) as [t|]; [|discriminate].
  destruct (existsb _ (leave_types db)); [|discriminate].
  destruct (f_start_date form) as [s|]; [|discriminate].
  destruct (f_end_date form) as [e|]; [|discriminate].
  destruct (cerrs ++ merrs) eqn:Herrs; [|discriminate].
  destruct cval as [[n|]|]; try discriminate.
  injection H as <-.
  apply catch_validation_Some in Hc. destruct Hc as [Hc _].
  unfold LeaveRequestForm_clean in Hc.
  destruct (s >? e) eqn:Hse; cbv beta iota in Hc; [discriminate|].
  destruct (s <? today) eqn:Hst; cbv beta iota in Hc; [discriminate|].
  destruct (overlapping db (u_id user) None s e) eqn:Hov;
    unfold bind in Hc; cbv beta iota in Hc; [|discriminate].
  destruct (calculate_business_days (Some s) (Some e)) as [n'|x] eqn:Hn;
    cbv beta iota in Hc; [|discriminate].
  injection Hc as <-.
  exists t, s, e, n'. repeat split; try reflexivity; try assumption.
  - rewrite Z.gtb_ltb in Hse. apply Z.ltb_ge in Hse. exact Hse.
  - apply Z.ltb_ge in Hst. exact Hst.
Qed.

(** An invalid form comes with at least one error. *)
Lemma LeaveRequestForm_is_valid_inl (db : DB) (user : User) (today : date)
    (form : leave_form) (errs : list text) :
  LeaveRequestForm_is_valid db user today form = Ok (inl errs) -> errs <> [].
Proof.
  unfold LeaveRequestForm_is_valid. intros H.
  apply bind_Ok_inv in H. destruct H as [[cerrs cval] [Hc H]].
  apply bind_Ok_inv in H. destruct H as [[merrs mval] [Hm H]].
  simpl in H.
  assert (Hfield : forall l : list text, field_errors :: l <> []) by discriminate.
  destruct (f_leave_type form) as [t|]; [|injection H as <-; apply Hfield].
  destruct (existsb _ (leave_types db)); [|injection H as <-; apply Hfield].
  destruct (f_start_date form) as [s|]; [|injection H as <-; apply Hfield].
  destruct (f_end_date form) as [e|]; [|injection H as <-; apply Hfield].
  destruct (cerrs ++ merrs) eqn:Herrs; [|injection H as <-; discriminate].
  destruct cval as [[n|]|]; try discriminate; exfalso.
  - (* clean returned without total_days: impossible with both dates *)
    apply catch_validation_Some in Hc. destruct Hc as [Hc _].
    unfold LeaveRequestForm_clean in Hc.
    destruct (s >? e); cbv beta iota in Hc; [discriminate|].
    destruct (s <? today); cbv beta iota in Hc; [discriminate|].
    destruct (overlapping db (u_id user) None s e);
      unfold bind in Hc; cbv beta iota in Hc; [|discriminate].
    destruct (calculate_business_days (Some s) (Some e)) as [n|x];
      cbv beta iota in Hc; discriminate.
  - (* clean raised: its error is in the list *)
    apply catch_validation_None in Hc. destruct Hc as [msg ->]. discriminate.
Qed.

Lemma filter_none (A : Type) (f : A -> bool) (l : list A) :
  (forall x, In x l -> f x = false) -> filter f l = [].
Proof.
  induction l as [|a l IH]; intros H; simpl; [reflexivity|].
  rewrite (H a) by now left. apply IH. intros x Hx. apply H. now right.
Qed.

Lemma entitlement_matches (e : LeaveEntitlement) (user leave_type : key) (year : Z) :
  Pos.eqb (le_user e) user && Pos.eqb (le_leave_type e) leave_type
  && (le_year e =? year) = true
  <-> entitlement_for e user leave_type year.
Proof.
  unfold entitlement_for.
  rewrite !andb_true_iff, !Pos.eqb_eq, Z.eqb_eq. tauto.
Qed.

Lemma get_entitlement_Ok (db : DB) (user leave_type : key) (year : Z)
    (ent : LeaveEntitlement) :
  get_entitlement db user leave_type year = Ok ent ->
  In ent (leave_entitlements db) /\ entitlement_for ent user leave_type year.
Proof.
  unfold get_entitlement. intros H. apply objects_get_Ok in H.
  assert (Hin : In ent (filter (fun e => Pos.eqb (le_user e) user
                                  && Pos.eqb (le_leave_type e) leave_type
                                  && (le_year e =? year)) (leave_entitlements db)))
    by (rewrite H; now left).
  apply filter_In in Hin. destruct Hin as [Hin Hm].
  split; [exact Hin | now apply entitlement_matches].
Qed.

Lemma get_entitlement_none (db : DB) (user leave_type : key) (year : Z) :
  (forall ent, In ent (leave_entitlements db) ->
     ~ entitlement_for ent user leave_type year) ->
  get_entitlement db user leave_type year = Raise DoesNotExist.
Proof.
  intros H. unfold get_entitlement. rewrite filter_none; [reflexivity|].
  intros e He. specialize (H e He).
  destruct (_ && _) eqn:E; [|reflexivity].
  apply entitlement_matches in E. contradiction.
Qed.

Lemma filter_unique (A B : Type) (f : A -> B) (p : A -> bool) (l : list A) (a : A) :
  NoDup (map f l) -> In a l -> p a = true ->
  (forall x, In x l -> p x = true -> f x = f a) ->
  filter p l = [a].
Proof.
  induction l as [|x l IH]; simpl; [tauto|].
  intros Hnd Hin Hp Hsame. inversion Hnd as [|? ? Hnotin Hnd']; subst.
  destruct Hin as [-> | Hin].
  - rewrite Hp. f_equal. apply filter_none. intros y Hy.
    destruct (p y) eqn:E; [|reflexivity].
    exfalso. apply Hnotin. rewrite <- (Hsame y) by auto. now apply in_map.
  - destruct (p x) eqn:E.
    + exfalso. apply Hnotin. rewrite (Hsame x) by auto. now apply in_map.
    + apply IH; auto.
Qed.

Lemma get_entitlement_unique (db : DB) (user leave_type : key) (year : Z)
    (ent : LeaveEntitlement) :
  entitlements_unique db -> In ent (leave_entitlements db) ->
  entitlement_for ent user leave_type year ->
  get_entitlement db user leave_type year = Ok ent.
Proof.
  intros Hu Hin Hfor. unfold get_entitlement.
  rewrite (@filter_unique _ _ (fun e => (le_user e, le_leave_type e, le_year e))
             _ _ ent Hu Hin); [reflexivity | now apply entitlement_matches |].
  intros x _ Hx. apply entitlement_matches in Hx.
  destruct Hx as (-> & -> & ->). destruct Hfor as (-> & -> & ->). reflexivity.
Qed.

(** What [leave_request_form] does with a valid form. *)
Lemma leave_request_form_valid (db : DB) (user : User) (today : date)
    (form : leave_form) (r : LeaveRequest) :
  LeaveRequestForm_is_valid db user today form = Ok (inr r) ->
  leave_request_form db user today form =
  match get_entitlement db (u_id user) (lr_leave_type r)
          (year_of (lr_start_date r)) with
  | Ok ent =>
      if decimal_gt (lr_total_days r) (remaining_days db ent)
      then (db, Responded [(error, insufficient_balance (remaining_days db ent)
                                     (lr_leave_type r))] (render_form []))
      else (set_leave_requests db
              (leave_requests db
               ++ [lr_set_pk (fresh_pk (map lr_pk (leave_requests db))) r]),
            Responded (submission_messages r (send_confirmation_email user)
                         (send_manager_notification db user)) redirect)
  | Raise DoesNotExist =>
      (db, Responded [(error, no_entitlement (lr_leave_type r)
                                (year_of (lr_start_date r)))] (render_form []))
  | Raise e => (db, Uncaught e)
  end.
Proof.
  intros Hv. unfold leave_request_form. rewrite Hv.
  apply LeaveRequestForm_is_valid_inr in Hv.
  destruct Hv as (t & s & e & n & _ & _ & _ & _ & _ & _ & Hn & ->).
  cbn [bind lr_total_days lr_start_date lr_end_date lr_user lr_leave_type].
  assert (Hre : (if decimal_is_zero (inject_Z n)
                 then n0 <- calculate_business_days (Some s) (Some e) ;;
                      Ok (lr_set_total_days (inject_Z n0)
                            {| lr_pk := None; lr_user := u_id user; lr_leave_type := t;
                               lr_start_date := s; lr_end_date := e;
                               lr_total_days := inject_Z n;
                               lr_comments := f_comments form; lr_status := PENDING;
                               lr_approved_by := None; lr_approved_at := None;
                               lr_rejection_reason := EmptyString |})
                 else Ok {| lr_pk := None; lr_user := u_id user; lr_leave_type := t;
                            lr_start_date := s; lr_end_date := e;
                            lr_total_days := inject_Z n;
                            lr_comments := f_comments form; lr_status := PENDING;
                            lr_approved_by := None; lr_approved_at := None;
                            lr_rejection_reason := EmptyString |})
                = Ok {| lr_pk := None; lr_user := u_id user; lr_leave_type := t;
                        lr_start_date := s; lr_end_date := e;
                        lr_total_days := inject_Z n;
                        lr_comments := f_comments form; lr_status := PENDING;
                        lr_approved_by := None; lr_approved_at := None;
                        lr_rejection_reason := EmptyString |}).
  { destruct (decimal_is_zero (inject_Z n)); [|reflexivity]. rewrite Hn. reflexivity. }
  rewrite Hre. cbn [bind lr_total_days lr_start_date lr_end_date lr_user lr_leave_type].
  destruct (get_entitlement db (u_id user) t (year_of s)) as [ent|x]; [|destruct x; reflexivity].
  destruct (decimal_gt (inject_Z n) (remaining_days db ent)); [reflexivity|].
  unfold LeaveRequest_save.
  cbn [bind lr_total_days lr_start_date lr_end_date lr_user lr_leave_type].
  rewrite Hre. reflexivity.
Qed.

(** C9: a leave request is persisted only if an entitlement row exists for
    (requester, leave type, year of the start date) and the computed
    [total_days] does not exceed its remaining days; when the row is missing
    or the days exceed the remaining days, the view queues an error message
    that names the condition and the store is unchanged.  A form that does
    not validate is re-rendered with its errors, and a validation that
    raises ends the request; the store is unchanged in both cases. *)
Theorem leave_request_form_checks_entitlement (db : DB) (user : User) (today : date)
    (form : leave_form) :
  let r := leave_request_form db user today form in
  (fst r <> db ->
   exists lr ent,
     LeaveRequestForm_is_valid db user today form = Ok (inr lr) /\
     In ent (leave_entitlements db) /\
     entitlement_for ent (u_id user) (lr_leave_type lr) (year_of (lr_start_date lr)) /\
     (lr_total_days lr <= remaining_days db ent)%Q /\
     leave_requests (fst r)
     = leave_requests db
       ++ [lr_set_pk (fresh_pk (map lr_pk (leave_requests db))) lr])
  /\ (forall lr,
        LeaveRequestForm_is_valid db user today form = Ok (inr lr) ->
        (forall ent, In ent (leave_entitlements db) ->
           ~ entitlement_for ent (u_id user) (lr_leave_type lr)
               (year_of (lr_start_date lr))) ->
        r = (db, Responded [(error, no_entitlement (lr_leave_type lr)
                                      (year_of (lr_start_date lr)))]
                   (render_form [])))
  /\ (forall lr ent,
        LeaveRequestForm_is_valid db user today form = Ok (inr lr) ->
        entitlements_unique db -> In ent (leave_entitlements db) ->
        entitlement_for ent (u_id user) (lr_leave_type lr)
          (year_of (lr_start_date lr)) ->
        (remaining_days db ent < lr_total_days lr)%Q ->
        r = (db, Responded [(error, insufficient_balance (remaining_days db ent)
                                      (lr_leave_type lr))]
                   (render_form [])))
  /\ (forall errs,
        LeaveRequestForm_is_valid db user today form = Ok (inl errs) ->
        errs <> [] /\ r = (db, Responded [] (render_form errs)))
  /\ (forall e,
        LeaveRequestForm_is_valid db user today form = Raise e ->
        r = (db, Uncaught e)).
Proof.
  intros r. subst r. repeat split.
  - intros Hchanged.
    destruct (LeaveRequestForm_is_valid db user today form) as [[errs|lr]|x] eqn:Hv.
    + exfalso. apply Hchanged. unfold leave_request_form. now rewrite Hv.
    + rewrite (@leave_request_form_valid _ _ _ _ _ Hv) in *.
      destruct (get_entitlement db (u_id user) (lr_leave_type lr)
                  (year_of (lr_start_date lr))) as [ent|x] eqn:Hent.
      * destruct (decimal_gt (lr_total_days lr) (remaining_days db ent)) eqn:Hgt;
          [exfalso; now apply Hchanged|].
        apply get_entitlement_Ok in Hent. destruct Hent as [Hin Hfor].
        apply decimal_gt_false in Hgt.
        exists lr, ent. repeat split; try assumption; try apply Hfor.
      * exfalso. apply Hchanged. destruct x; reflexivity.
    + exfalso. apply Hchanged. unfold leave_request_form. now rewrite Hv.
  - intros lr Hv Hnone. rewrite (@leave_request_form_valid _ _ _ _ _ Hv).
    now rewrite get_entitlement_none.
  - intros lr ent Hv Hu Hin Hfor Hlt. rewrite (@leave_request_form_valid _ _ _ _ _ Hv).
    rewrite (@get_entitlement_unique _ _ _ _ _ Hu Hin Hfor).
    apply decimal_gt_spec in Hlt. now rewrite Hlt.
  - now apply LeaveRequestForm_is_valid_inl in H.
  - unfold leave_request_form. now rewrite H.
  - intros e Hv. unfold leave_request_form. now rewrite Hv.
Qed.

(** alice has no entitlement for 2025: her request for 2025-01-01 is
    answered with the missing-entitlement error. *)
Lemma leave_request_form_checks_entitlement_witness :
  leave_request_form db0 alice monday form_2025
  = (db0, Responded [(error, no_entitlement 1%positive 2025)] (render_form [])).
Proof.
  evar (lr : LeaveRequest).
  assert (Hv : LeaveRequestForm_is_valid db0 alice monday form_2025 = Ok (inr lr))
    by (subst lr; vm_compute; reflexivity).
  apply (proj1 (proj2 (leave_request_form_checks_entitlement db0 alice monday form_2025))
           lr Hv).
  intros ent [<- | []] (_ & _ & Hy). vm_compute in Hy. discriminate.
Defined.

(** ** C10: the leave balance *)

(** C10: [get_leave_balance] returns 0 when no entitlement row exists for the
    user, the leave type and the year, and the remaining days of the row
    when it exists. *)
Theorem get_leave_balance_spec (db : DB) (self : User) (leave_type : key)
    (year : option Z) (today : date) :
  let y := match year with Some y => y | None => year_of today end in
  ((forall ent, In ent (leave_entitlements db) ->
      ~ entitlement_for ent (u_id self) leave_type y) ->
   get_leave_balance db self leave_type year today = Ok 0%Q)
  /\ (forall ent,
        entitlements_unique db -> In ent (leave_entitlements db) ->
        entitlement_for ent (u_id self) leave_type y ->
        get_leave_balance db self leave_type year today
        = Ok (remaining_days db ent)).
Proof.
  intros y. unfold get_leave_balance. fold y. split.
  - intros Hnone. now rewrite get_entitlement_none.
  - intros ent Hu Hin Hfor. now rewrite (@get_entitlement_unique _ _ _ _ _ Hu Hin Hfor).
Qed.

(** alice's balance of 2024 is her allocation of 25 days; for 2025, where
    she has no entitlement, it is 0. *)
Lemma get_leave_balance_spec_witness :
  get_leave_balance db0 alice 1%positive None monday = Ok 25%Q /\
  get_leave_balance db0 alice 1%positive (Some 2025) monday = Ok 0%Q.
Proof.
  split.
  - apply (proj2 (get_leave_balance_spec db0 alice 1%positive None monday)
             alice_annual_2024).
    + repeat constructor. simpl. tauto.
    + now left.
    + repeat split.
  - apply (proj1 (get_leave_balance_spec db0 alice 1%positive (Some 2025) monday)).
    intros ent [<- | []] (_ & _ & Hy). discriminate.
Defined.

(** ** Creation of a request: what C5 and C6 say about it *)

(** The store after [leave_request_form]: as before, or with one more
    request, PENDING, that overlaps no active request of the user. *)
Lemma leave_request_form_store (db : DB) (user : User) (today : date)
    (form : leave_form) :
  fst (leave_request_form db user today form) = db \/
  exists lr,
    fst (leave_request_form db user today form)
    = set_leave_requests db
        (leave_requests db
         ++ [lr_set_pk (fresh_pk (map lr_pk (leave_requests db))) lr]) /\
    lr_status lr = PENDING /\ lr_user lr = u_id user /\
    overlapping db (u_id user) None (lr_start_date lr) (lr_end_date lr) = [].
Proof.
  destruct (LeaveRequestForm_is_valid db user today form) as [[errs|lr]|x] eqn:Hv.
  - left. unfold leave_request_form. now rewrite Hv.
  - rewrite (@leave_request_form_valid _ _ _ _ _ Hv).
    destruct (get_entitlement _ _ _ _) as [ent|x]; [|left; destruct x; reflexivity].
    destruct (decimal_gt _ _); [now left|].
    right. exists lr. split; [reflexivity|].
    apply LeaveRequestForm_is_valid_inr in Hv.
    destruct Hv as (t & s & e & n & _ & _ & _ & _ & _ & Hov & _ & ->).
    simpl. auto.
  - left. unfold leave_request_form. now rewrite Hv.
Qed.

(** Creating a request, which is PENDING, leaves the remaining days of every
    entitlement as they were. *)
Lemma create_keeps_remaining_days (db : DB) (user : User) (today : date)
    (form : leave_form) (ent : LeaveEntitlement) :
  remaining_days (fst (leave_request_form db user today form)) ent
  = remaining_days db ent.
Proof.
  destruct (leave_request_form_store db user today form)
    as [-> | (lr & -> & Hs & _)]; [reflexivity|].
  unfold remaining_days, used_days. simpl.
  rewrite filter_app. simpl. rewrite Hs.
  rewrite !andb_false_r. now rewrite app_nil_r.
Qed.

(** A request that overlaps a PENDING or APPROVED request of the requester
    is not created. *)
Lemma create_rejects_overlap (db : DB) (user : User) (today : date)
    (form : leave_form) (s e : date) (x : LeaveRequest) :
  f_start_date form = Some s -> f_end_date form = Some e ->
  In x (leave_requests db) -> lr_user x = u_id user -> is_active x = true ->
  lr_start_date x <= e -> s <= lr_end_date x ->
  fst (leave_request_form db user today form) = db.
Proof.
  intros Hs He Hin Hu Ha H1 H2.
  destruct (leave_request_form_store db user today form)
    as [H | (lr & H & _ & _ & Hov)]; [exact H|].
  exfalso.
  destruct (LeaveRequestForm_is_valid db user today form) as [[errs|lr']|y] eqn:Hv;
    try (unfold leave_request_form in H; rewrite Hv in H; simpl in H;
         apply (f_equal leave_requests) in H; simpl in H;
         apply (f_equal (@List.length _)) in H; rewrite length_app in H;
         simpl in H; lia).
  pose proof Hv as Hv'. apply LeaveRequestForm_is_valid_inr in Hv'.
  destruct Hv' as (t & s' & e' & n & _ & Hs' & He' & _ & _ & Hov' & _ & _).
  rewrite Hs in Hs'. rewrite He in He'. injection Hs' as <-. injection He' as <-.
  assert (Hx : In x (overlapping db (u_id user) None s e)).
  { unfold overlapping. apply filter_In. split; [exact Hin|].
    rewrite Hu, Pos.eqb_refl. unfold is_active in Ha. rewrite Ha. simpl.
    apply andb_true_iff. split; apply Z.leb_le; assumption. }
  rewrite Hov' in Hx. destruct Hx.
Qed.

(** Creation keeps the requests of every user free of overlaps among the
    PENDING and APPROVED ones. *)
Lemma create_keeps_no_overlap (db : DB) (user : User) (today : date)
    (form : leave_form) :
  no_overlapping_active db ->
  no_overlapping_active (fst (leave_request_form db user today form)).
Proof.
  intros Hinv.
  destruct (leave_request_form_store db user today form)
    as [-> | (lr & -> & Hs & Hu & Hov)]; [exact Hinv|].
  assert (Hold : forall x, In x (leave_requests db) -> lr_user x = u_id user ->
                   is_active x = true ->
                   (lr_start_date x <=? lr_end_date lr)
                   && (lr_start_date lr <=? lr_end_date x) = false).
  { intros x Hx Hxu Hxa.
    destruct (_ && _) eqn:E; [|reflexivity]. exfalso.
    assert (Hin : In x (overlapping db (u_id user) None
                          (lr_start_date lr) (lr_end_date lr))).
    { unfold overlapping. apply filter_In. split; [exact Hx|].
      rewrite Hxu, Pos.eqb_refl. unfold is_active in Hxa. rewrite Hxa. exact E. }
    rewrite Hov in Hin. destruct Hin. }
  intros a b Ha Hb Hpk Hab Haa Hba. simpl in Ha, Hb.
  apply in_app_iff in Ha. apply in_app_iff in Hb.
  destruct Ha as [Ha | [<- | []]], Hb as [Hb | [<- | []]].
  - now apply Hinv.
  - unfold ranges_overlap. simpl in *. apply Hold; auto. congruence.
  - unfold ranges_overlap. simpl in *. rewrite andb_comm. apply Hold; auto. congruence.
  - contradiction.
Qed.
